(** * Gatekeeper agent: routing and request validation

  A shallow embedding of [gatekeeper_agent.py] (class [GatekeeperAgent])
  and the properties of its two methods, [validate_request] and
  [process_action].

  Python strings are sequences of Unicode code points; the collaborators
  ([PatientAgent], [ExaminationAgent]) are opaque objects whose methods
  may have effects and may raise, so [process_action] is embedded as a
  small program of responder calls that a handler interprets. *)

From Stdlib Require Import List NArith Bool String Ascii Lia.
Import ListNotations.

Local Open Scope N_scope.

(** ** Python [str] *)

Module PyStr.

(** A [str] is a list of code points. *)
Definition str : Type := list N.

(** A string literal of the source (all of them are ASCII). *)
Definition lit (s : string) : str :=
  map N_of_ascii (list_ascii_of_string s).

Definition is_ascii (c : N) : bool := c <? 128.

(** ['A'..'Z'] go to ['a'..'z']; every other ASCII code point stays. *)
Definition ascii_lower (c : N) : N :=
  if (65 <=? c) && (c <=? 90) then c + 32 else c.

(** [str.isspace] for one code point: the code points Python treats as
    whitespace. *)
Definition isspace (c : N) : bool :=
  ((9 <=? c) && (c <=? 13)) || ((28 <=? c) && (c <=? 32))
  || (c =? 133) || (c =? 160) || (c =? 5760)
  || ((8192 <=? c) && (c <=? 8202))
  || (c =? 8232) || (c =? 8233) || (c =? 8239) || (c =? 8287)
  || (c =? 12288).

Section Lower.

(** Lower-casing of a string that has a code point outside ASCII is
    decided by the Unicode character database of the interpreter (it is
    not a character-by-character map: capital sigma depends on its
    neighbours).  It is a parameter of the development. *)
Variable unicode_lower : str -> str.

(** [s.lower()]: an all-ASCII string is mapped code point by code
    point, any other string goes through the Unicode tables. *)
Definition lower (s : str) : str :=
  if forallb is_ascii s then map ascii_lower s else unicode_lower s.

End Lower.

(** [s.startswith(p)] *)
Fixpoint startswith (p s : str) : bool :=
  match p, s with
  | [], _ => true
  | _ :: _, [] => false
  | a :: p', b :: s' => (a =? b) && startswith p' s'
  end.

(** [p in s]: [p] occurs in [s] as a contiguous run. *)
Fixpoint contains (p s : str) : bool :=
  startswith p s ||
  match s with
  | [] => false
  | _ :: s' => contains p s'
  end.

(** The meaning of [p in s]. *)
Definition Substring (p s : str) : Prop :=
  exists pre suf : str, s = pre ++ p ++ suf.

End PyStr.

Import PyStr.

(** ** Data model *)

(** Modelled from the spec: the enumeration [ActionType] is declared in
    [data_models], which is not part of the sources at hand.  The two members
    the gatekeeper names are [ASK_QUESTIONS] and [REQUEST_TESTS]; [OTHER]
    stands for any further member, identified by its name. *)
Inductive ActionType : Type :=
| ASK_QUESTIONS
| REQUEST_TESTS
| OTHER (name : string).

(** [a == b] on members of the enumeration. *)
Definition ActionType_eqb (a b : ActionType) : bool :=
  match a, b with
  | ASK_QUESTIONS, ASK_QUESTIONS => true
  | REQUEST_TESTS, REQUEST_TESTS => true
  | OTHER n, OTHER m => String.eqb n m
  | _, _ => false
  end.

(** A raised exception: its class and its message. *)
Record PyExn : Type := mkExn {
  exc_class : string;
  exc_msg : str
}.

Inductive Outcome (A : Type) : Type :=
| Returned (a : A)
| Raised (e : PyExn).

Arguments Returned {A} a.
Arguments Raised {A} e.

Section Gatekeeper.

(** The collaborators' types, all declared outside [gatekeeper_agent.py]. *)
Variables Config CaseFile GatekeeperResponse : Type.
Variables PatientAgent ExaminationAgent : Type.

(** The fields of an [AgentAction] other than the two the gatekeeper
    reads. *)
Variable ActionExtra : Type.

(** Modelled from the spec: [AgentAction] is declared in [data_models],
    which is not part of the sources at hand.  It is a record with the
    fields [action_type] and [content], the two the gatekeeper reads;
    whatever else it holds is [action_extra]. *)
Record AgentAction : Type := mkAction {
  action_type : ActionType;
  content : str;
  action_extra : ActionExtra
}.

(** Constructors and the [model] attribute of the two sub-agents. *)
Variable new_PatientAgent : Config -> PatientAgent.
Variable new_ExaminationAgent : Config -> ExaminationAgent.
Variable patient_model : PatientAgent -> str.
Variable examination_model : ExaminationAgent -> str.

(** How an f-string renders an [ActionType]. *)
Variable format_action_type : ActionType -> str.

(** The interpreter's lower-casing of text that is not all ASCII. *)
Variable unicode_lower : str -> str.

(** The attributes of a [GatekeeperAgent]. *)
Record GatekeeperAgent : Type := mkGatekeeper {
  config : Config;
  patient_agent : PatientAgent;
  examination_agent : ExaminationAgent;
  model : str
}.


(** *** [validate_request] *)

Definition broad_indicators : list str :=
  [ lit "tell me everything"; lit "what's wrong"; lit "what should I do";
    lit "give me all information"; lit "summarize the case" ].

Definition vague_indicators : list str :=
  [ lit "run blood work"; lit "do some imaging"; lit "order labs";
    lit "get tests"; lit "run diagnostics" ].

Definition broad_message : str :=
  lit "Please ask more specific questions about the patient's history or examination findings.".

Definition vague_message : str :=
  lit "Please specify the exact test you would like to order (e.g., 'Complete Blood Count', 'CT of the abdomen with contrast').".

(** The loop [for indicator in indicators: if indicator in text: return
    False, ...]: does some indicator occur in [text]? *)
Fixpoint any_indicator_in (indicators : list str) (text : str) : bool :=
  match indicators with
  | [] => false
  | indicator :: rest =>
      if contains indicator text then true
      else any_indicator_in rest text
  end.

Definition validate_request (self : GatekeeperAgent) (action : AgentAction)
  : bool * str :=
  if ActionType_eqb (action_type action) ASK_QUESTIONS then
    let question_lower := lower unicode_lower (content action) in
    if any_indicator_in broad_indicators question_lower
    then (false, broad_message)
    else (true, lit "")
  else if ActionType_eqb (action_type action) REQUEST_TESTS then
    let test_lower := lower unicode_lower (content action) in
    if any_indicator_in vague_indicators test_lower
    then (false, vague_message)
    else (true, lit "")
  else (true, lit "").

(** *** [process_action] *)

(** A method call on one of the two sub-agents. *)
Inductive Call : Type :=
| AnswerQuestion (agent : PatientAgent) (question : str)
                 (case_file : CaseFile)
| FetchResult (agent : ExaminationAgent) (test_name : str)
              (case_file : CaseFile).

(** Programs over sub-agent calls: return a value, raise, or call a
    sub-agent and go on with what it returned.  An exception raised by the
    callee is not caught, so it ends the program. *)
Inductive Prog (A : Type) : Type :=
| Ret (a : A)
| Raise (e : PyExn)
| Invoke (c : Call) (k : GatekeeperResponse -> Prog A).

Arguments Ret {A} a.
Arguments Raise {A} e.
Arguments Invoke {A} c k.

Definition process_action (self : GatekeeperAgent) (action : AgentAction)
                          (case_file : CaseFile) : Prog GatekeeperResponse :=
  if ActionType_eqb (action_type action) ASK_QUESTIONS then
    Invoke (AnswerQuestion (patient_agent self) (content action) case_file)
           Ret
  else if ActionType_eqb (action_type action) REQUEST_TESTS then
    Invoke (FetchResult (examination_agent self) (content action) case_file)
           Ret
  else
    Raise {| exc_class := "ValueError";
             exc_msg := lit "Gatekeeper cannot process action type: "
                        ++ format_action_type (action_type action) |}.

(** *** Running a program against sub-agents

    The sub-agents are given by [handler]: what a call returns or raises,
    and how it changes the world [W] (their own state, the case file, the
    backend).  [run] gives the outcome, the final world and the calls made,
    in order. *)
Section Run.

Variable W : Type.
Variable handler : Call -> W -> Outcome GatekeeperResponse * W.

Fixpoint run {A : Type} (p : Prog A) (w : W)
  : Outcome A * W * list Call :=
  match p with
  | Ret a => (Returned a, w, [])
  | Raise e => (Raised e, w, [])
  | Invoke c k =>
      match handler c w with
      | (Returned r, w') =>
          let '(o, w'', calls) := run (k r) w' in (o, w'', c :: calls)
      | (Raised e, w') => (Raised e, w', [c])
      end
  end.

End Run.

(** ** Facts about strings *)

Lemma startswith_iff (p s : str) :
  startswith p s = true <-> exists suf, s = p ++ suf.
Proof.
  revert s; induction p as [|a p IH]; intros s; simpl.
  - split; [intros _; now exists s | reflexivity].
  - destruct s as [|b s].
    + split; [discriminate | intros [suf H]; discriminate].
    + rewrite andb_true_iff, N.eqb_eq, IH. split.
      * intros [-> [suf ->]]. now exists suf.
      * intros [suf H]. injection H as -> ->. split; [reflexivity | now exists suf].
Qed.

Lemma contains_iff (p s : str) :
  contains p s = true <-> Substring p s.
Proof.
  unfold Substring. induction s as [|b s IH].
  - simpl. rewrite orb_false_r, startswith_iff. split.
    + intros [suf H]. now exists [], suf.
    + intros [pre [suf H]]. destruct pre; simpl in H.
      * now exists suf.
      * discriminate.
  - cbn [contains]. rewrite orb_true_iff, startswith_iff, IH. split.
    + intros [[suf H] | [pre [suf H]]].
      * now exists [], suf.
      * exists (b :: pre), suf. now rewrite H.
    + intros [pre [suf H]]. destruct pre as [|c pre]; simpl in H.
      * left. now exists suf.
      * right. injection H as _ H. now exists pre, suf.
Qed.

Lemma Substring_incl (p s : str) (c : N) :
  Substring p s -> In c p -> In c s.
Proof.
  intros [pre [suf ->]] Hc. apply in_or_app. right.
  apply in_or_app. now left.
Qed.

Lemma any_indicator_in_iff (indicators : list str) (text : str) :
  any_indicator_in indicators text = true <->
  exists indicator, In indicator indicators /\ Substring indicator text.
Proof.
  induction indicators as [|i rest IH]; simpl.
  - split; [discriminate | intros [x [[] _]]].
  - destruct (contains i text) eqn:Hc.
    + split; [intros _ | reflexivity].
      exists i. split; [now left | now apply contains_iff].
    + rewrite IH. split.
      * intros [x [Hin Hs]]. exists x. split; [now right | exact Hs].
      * intros [x [[<- | Hin] Hs]].
        -- apply contains_iff in Hs. congruence.
        -- now exists x.
Qed.

Lemma any_indicator_in_false_iff (indicators : list str) (text : str) :
  any_indicator_in indicators text = false <->
  forall indicator, In indicator indicators -> ~ Substring indicator text.
Proof.
  rewrite <- not_true_iff_false, any_indicator_in_iff. split.
  - intros H x Hin Hs. apply H. now exists x.
  - intros H [x [Hin Hs]]. exact (H x Hin Hs).
Qed.

Lemma ActionType_eqb_eq (a b : ActionType) :
  ActionType_eqb a b = true <-> a = b.
Proof.
  destruct a, b; simpl; try (split; [discriminate | congruence]);
    try (split; reflexivity).
  rewrite String.eqb_eq. split; congruence.
Qed.

Lemma ActionType_eqb_neq (a b : ActionType) :
  ActionType_eqb a b = false <-> a <> b.
Proof.
  rewrite <- not_true_iff_false, ActionType_eqb_eq. reflexivity.
Qed.

(** On all-ASCII text, [lower] leaves no capital letter behind. *)
Lemma lower_ascii_no_capital (s : str) (c : N) :
  forallb is_ascii s = true ->
  In c (lower unicode_lower s) -> 65 <= c <= 90 -> False.
Proof.
  intros Hs Hin Hc. unfold lower in Hin. rewrite Hs in Hin.
  apply in_map_iff in Hin. destruct Hin as [x [Hx _]].
  unfold ascii_lower in Hx.
  destruct ((65 <=? x) && (x <=? 90)) eqn:E.
  - apply andb_true_iff in E. destruct E as [E1 E2].
    apply N.leb_le in E1, E2. lia.
  - subst x. apply andb_false_iff in E.
    destruct E as [E | E]; apply N.leb_gt in E; lia.
Qed.

(** The third broad phrase is spelled with a capital [I], so it is never
    found in lower-cased ASCII text. *)
Lemma what_should_I_do_not_in_lowered_ascii (s : str) :
  forallb is_ascii s = true ->
  contains (lit "what should I do") (lower unicode_lower s) = false.
Proof.
  intros Hs. apply not_true_iff_false. intros Hc.
  apply contains_iff in Hc.
  apply (lower_ascii_no_capital s 73 Hs); [ | lia].
  apply (Substring_incl _ _ 73 Hc). vm_compute. tauto.
Qed.

(** A text made of whitespace only has no room for a phrase that has a
    code point that is not whitespace. *)
Lemma contains_forallb (f : N -> bool) (p s : str) :
  contains p s = true -> forallb f s = true -> forallb f p = true.
Proof.
  intros Hc Hs. apply contains_iff in Hc.
  rewrite forallb_forall in *. intros c Hin.
  apply Hs. exact (Substring_incl p s c Hc Hin).
Qed.

Lemma any_indicator_in_blank (indicators : list str) (text : str) :
  existsb (forallb isspace) indicators = false ->
  forallb isspace text = true ->
  any_indicator_in indicators text = false.
Proof.
  intros Hi Ht. induction indicators as [|i rest IH]; simpl in *.
  - reflexivity.
  - apply orb_false_iff in Hi. destruct Hi as [Hi Hrest].
    destruct (contains i text) eqn:Hc.
    + rewrite (contains_forallb isspace i text Hc Ht) in Hi. discriminate.
    + now apply IH.
Qed.

Lemma ascii_lower_isspace (c : N) :
  isspace c = true -> ascii_lower c = c.
Proof.
  unfold ascii_lower. destruct ((65 <=? c) && (c <=? 90)) eqn:E; [ | reflexivity].
  apply andb_true_iff in E. destruct E as [E1 E2].
  apply N.leb_le in E1, E2. unfold isspace.
  repeat rewrite orb_true_iff. repeat rewrite andb_true_iff.
  repeat rewrite N.leb_le. repeat rewrite N.eqb_eq. lia.
Qed.

Lemma lower_blank (s : str) :
  (forall t, forallb isspace t = true ->
             forallb isspace (unicode_lower t) = true) ->
  forallb isspace s = true ->
  forallb isspace (lower unicode_lower s) = true.
Proof.
  intros Hu Hs. unfold lower. destruct (forallb is_ascii s).
  - rewrite forallb_forall in *. intros c Hin.
    apply in_map_iff in Hin. destruct Hin as [x [Hx Hin]].
    specialize (Hs x Hin). rewrite (ascii_lower_isspace x Hs) in Hx.
    now subst.
  - now apply Hu.
Qed.

(** ** [validate_request] *)

(** What [validate_request] does on each of the two action types, in terms
    of the loop over the indicators. *)
Lemma validate_request_ask (self : GatekeeperAgent) (action : AgentAction) :
  action_type action = ASK_QUESTIONS ->
  validate_request self action =
  if any_indicator_in broad_indicators (lower unicode_lower (content action))
  then (false, broad_message) else (true, lit "").
Proof.
  intros H. unfold validate_request. rewrite H. reflexivity.
Qed.

Lemma validate_request_test (self : GatekeeperAgent) (action : AgentAction) :
  action_type action = REQUEST_TESTS ->
  validate_request self action =
  if any_indicator_in vague_indicators (lower unicode_lower (content action))
  then (false, vague_message) else (true, lit "").
Proof.
  intros H. unfold validate_request. rewrite H. reflexivity.
Qed.

Lemma validate_request_other (self : GatekeeperAgent) (action : AgentAction) :
  action_type action <> ASK_QUESTIONS ->
  action_type action <> REQUEST_TESTS ->
  validate_request self action = (true, lit "").
Proof.
  intros H1 H2. unfold validate_request.
  apply ActionType_eqb_neq in H1, H2. rewrite H1, H2. reflexivity.
Qed.

(** C2 (the code departs from the claim): the question "What should I do
    next?" contains the broad phrase "what should I do" when case is
    ignored, and yet [validate_request] accepts it.  The phrase is written
    with a capital [I], and the text it is looked up in has been
    lower-cased. *)
Theorem validate_request_accepts_what_should_I_do
    (self : GatekeeperAgent) (extra : ActionExtra) :
  Substring (lower unicode_lower (lit "what should I do"))
            (lower unicode_lower (lit "What should I do next?"))
  /\ In (lit "what should I do") broad_indicators
  /\ validate_request self
       (mkAction ASK_QUESTIONS (lit "What should I do next?") extra)
     = (true, lit "").
Proof.
  split; [ | split ].
  - exists [], (lit " next?"). vm_compute. reflexivity.
  - vm_compute. tauto.
  - vm_compute. reflexivity.
Qed.

(** C3: an [ASK_QUESTIONS] action whose lower-cased content has one of the
    broad phrases as a substring is rejected with the message that asks for
    more specific questions. *)
Theorem validate_request_rejects_broad_question
    (self : GatekeeperAgent) (action : AgentAction) :
  action_type action = ASK_QUESTIONS ->
  (exists phrase, In phrase broad_indicators /\
                  Substring phrase (lower unicode_lower (content action))) ->
  validate_request self action
  = (false,
     lit "Please ask more specific questions about the patient's history or examination findings.").
Proof.
  intros Ht Hp. rewrite (validate_request_ask self action Ht).
  apply any_indicator_in_iff in Hp. rewrite Hp. reflexivity.
Qed.

(** C4: an [ASK_QUESTIONS] action whose lower-cased content has none of the
    broad phrases as a substring is accepted, with the empty message. *)
Theorem validate_request_accepts_specific_question
    (self : GatekeeperAgent) (action : AgentAction) :
  action_type action = ASK_QUESTIONS ->
  (forall phrase, In phrase broad_indicators ->
                  ~ Substring phrase (lower unicode_lower (content action))) ->
  validate_request self action = (true, lit "").
Proof.
  intros Ht Hp. rewrite (validate_request_ask self action Ht).
  apply any_indicator_in_false_iff in Hp. rewrite Hp. reflexivity.
Qed.

(** C5: a [REQUEST_TESTS] action is rejected, with the message that asks for
    the exact test, when its lower-cased content has one of the vague-test
    phrases as a substring, and is accepted with the empty message
    otherwise. *)
Theorem validate_request_test_request
    (self : GatekeeperAgent) (action : AgentAction) :
  action_type action = REQUEST_TESTS ->
  ((exists phrase, In phrase vague_indicators /\
                   Substring phrase (lower unicode_lower (content action))) ->
   validate_request self action
   = (false,
      lit "Please specify the exact test you would like to order (e.g., 'Complete Blood Count', 'CT of the abdomen with contrast')."))
  /\
  ((forall phrase, In phrase vague_indicators ->
                   ~ Substring phrase (lower unicode_lower (content action))) ->
   validate_request self action = (true, lit "")).
Proof.
  intros Ht. rewrite (validate_request_test self action Ht). split; intros Hp.
  - apply any_indicator_in_iff in Hp. rewrite Hp. reflexivity.
  - apply any_indicator_in_false_iff in Hp. rewrite Hp. reflexivity.
Qed.

(** C6: an action whose type is neither [ASK_QUESTIONS] nor [REQUEST_TESTS]
    is accepted with the empty message, whatever its content. *)
Theorem validate_request_passes_other_types
    (self : GatekeeperAgent) (action : AgentAction) :
  action_type action <> ASK_QUESTIONS ->
  action_type action <> REQUEST_TESTS ->
  validate_request self action = (true, lit "").
Proof.
  exact (validate_request_other self action).
Qed.

(** C8: the result of [validate_request] is determined by the type and the
    content of the action: two calls, on any two gatekeepers, with actions
    that agree on these two fields, return the same pair.  The method takes
    no case file, and it is a function: it calls no sub-agent and writes no
    attribute. *)
Theorem validate_request_depends_on_type_and_content
    (self1 self2 : GatekeeperAgent) (action1 action2 : AgentAction) :
  action_type action1 = action_type action2 ->
  content action1 = content action2 ->
  validate_request self1 action1 = validate_request self2 action2.
Proof.
  intros Ht Hc. unfold validate_request. rewrite Ht, Hc. reflexivity.
Qed.

(** C9: content that is empty, or is made of whitespace only, is accepted
    with the empty message for every action type, [ASK_QUESTIONS] and
    [REQUEST_TESTS] included.  Outside ASCII the lower-casing is the
    interpreter's; what is used of it is that it turns whitespace into
    whitespace. *)
Theorem validate_request_accepts_blank_content
    (self : GatekeeperAgent) (action : AgentAction) :
  (forall t, forallb isspace t = true ->
             forallb isspace (unicode_lower t) = true) ->
  forallb isspace (content action) = true ->
  validate_request self action = (true, lit "").
Proof.
  intros Hu Hs. pose proof (lower_blank (content action) Hu Hs) as Hl.
  unfold validate_request.
  rewrite (any_indicator_in_blank broad_indicators _ eq_refl Hl).
  rewrite (any_indicator_in_blank vague_indicators _ eq_refl Hl).
  destruct (ActionType_eqb (action_type action) ASK_QUESTIONS);
    [ | destruct (ActionType_eqb (action_type action) REQUEST_TESTS) ];
    reflexivity.
Qed.

(** C10: [validate_request] answers [True] exactly when its message is
    empty; a rejection carries the broad-question message for an
    [ASK_QUESTIONS] action and the vague-test message for a [REQUEST_TESTS]
    action, both non-empty, and no other message is produced. *)
Theorem validate_request_ok_iff_empty_message
    (self : GatekeeperAgent) (action : AgentAction) :
  (fst (validate_request self action) = true <->
   snd (validate_request self action) = lit "")
  /\ (fst (validate_request self action) = false ->
      (action_type action = ASK_QUESTIONS /\
       snd (validate_request self action) = broad_message)
      \/ (action_type action = REQUEST_TESTS /\
          snd (validate_request self action) = vague_message))
  /\ (snd (validate_request self action) = lit ""
      \/ snd (validate_request self action) = broad_message
      \/ snd (validate_request self action) = vague_message)
  /\ broad_message <> lit "" /\ vague_message <> lit "".
Proof.
  assert (Hb : broad_message <> lit "") by (vm_compute; discriminate).
  assert (Hv : vague_message <> lit "") by (vm_compute; discriminate).
  unfold validate_request.
  destruct (ActionType_eqb (action_type action) ASK_QUESTIONS) eqn:E1.
  - apply ActionType_eqb_eq in E1.
    destruct (any_indicator_in broad_indicators _); simpl.
    + repeat split; try discriminate; try tauto.
    + repeat split; try discriminate; try tauto.
  - destruct (ActionType_eqb (action_type action) REQUEST_TESTS) eqn:E2.
    + apply ActionType_eqb_eq in E2.
      destruct (any_indicator_in vague_indicators _); simpl.
      * repeat split; try discriminate; try tauto.
      * repeat split; try discriminate; try tauto.
    + simpl. repeat split; try discriminate; try tauto.
Qed.

(** ** [process_action] *)

(** A program that makes one call and returns what the callee returns has
    the callee's outcome and final world, and that one call as its trace. *)
Lemma run_single_call (W : Type)
    (handler : Call -> W -> Outcome GatekeeperResponse * W)
    (c : Call) (w : W) :
  run W handler (Invoke c Ret) w = (handler c w, [c]).
Proof.
  simpl. destruct (handler c w) as [[r | e] w']; reflexivity.
Qed.

(** C1: on an [ASK_QUESTIONS] action, [process_action] is the single call
    [answer_question(action.content, case_file)] on the gatekeeper's patient
    agent, and on a [REQUEST_TESTS] action the single call
    [fetch_result(action.content, case_file)] on its examination agent; run
    against any sub-agents, the outcome and the final world are the
    callee's, and the callee was called once, with these arguments.  The
    content is arbitrary: nothing is validated on the way. *)
Theorem process_action_forwards
    (self : GatekeeperAgent) (text : str) (extra : ActionExtra)
    (case_file : CaseFile) (W : Type)
    (handler : Call -> W -> Outcome GatekeeperResponse * W) (w : W) :
  let ask := mkAction ASK_QUESTIONS text extra in
  let test := mkAction REQUEST_TESTS text extra in
  let to_patient := AnswerQuestion (patient_agent self) text case_file in
  let to_exam := FetchResult (examination_agent self) text case_file in
  process_action self ask case_file = Invoke to_patient Ret
  /\ run W handler (process_action self ask case_file) w
     = (handler to_patient w, [to_patient])
  /\ process_action self test case_file = Invoke to_exam Ret
  /\ run W handler (process_action self test case_file) w
     = (handler to_exam w, [to_exam]).
Proof.
  cbv zeta. repeat split; try reflexivity;
    unfold process_action; cbn [action_type content ActionType_eqb];
    apply run_single_call.
Qed.

(** A question that [validate_request] rejects is forwarded all the same. *)
Lemma process_action_forwards_rejected_question
    (self : GatekeeperAgent) (extra : ActionExtra) (case_file : CaseFile) :
  let action := mkAction ASK_QUESTIONS (lit "Tell me everything") extra in
  fst (validate_request self action) = false
  /\ process_action self action case_file
     = Invoke (AnswerQuestion (patient_agent self) (lit "Tell me everything")
                              case_file) Ret.
Proof.
  split; [vm_compute | ]; reflexivity.
Qed.

(** C7 (as the code has it): on an action whose type is neither
    [ASK_QUESTIONS] nor [REQUEST_TESTS], [process_action] raises a
    [ValueError] whose message is "Gatekeeper cannot process action type: "
    followed by the action type; run against any sub-agents, the exception
    reaches the caller, no sub-agent is called and the world is
    unchanged. *)
Theorem process_action_raises_ValueError
    (self : GatekeeperAgent) (action : AgentAction) (case_file : CaseFile)
    (W : Type) (handler : Call -> W -> Outcome GatekeeperResponse * W)
    (w : W) :
  action_type action <> ASK_QUESTIONS ->
  action_type action <> REQUEST_TESTS ->
  let error :=
    {| exc_class := "ValueError";
       exc_msg := lit "Gatekeeper cannot process action type: "
                  ++ format_action_type (action_type action) |} in
  process_action self action case_file = Raise error
  /\ run W handler (process_action self action case_file) w
     = (Raised error, w, []).
Proof.
  intros H1 H2. apply ActionType_eqb_neq in H1, H2.
  cbv zeta. unfold process_action. rewrite H1, H2. split; reflexivity.
Qed.


(** ** Further properties of [validate_request] *)

Lemma lower_ascii (s : str) :
  forallb is_ascii s = true -> lower unicode_lower s = map ascii_lower s.
Proof.
  intros H. unfold lower. rewrite H. reflexivity.
Qed.

Lemma Substring_map (f : N -> N) (q s : str) :
  Substring q s -> Substring (map f q) (map f s).
Proof.
  intros [pre [suf ->]]. exists (map f pre), (map f suf).
  now rewrite !map_app.
Qed.

Lemma Substring_trans (p s t : str) :
  Substring p s -> Substring s t -> Substring p t.
Proof.
  intros [a [b ->]] [c [d ->]]. exists (c ++ a), (b ++ d).
  now rewrite <- !app_assoc.
Qed.

Lemma any_indicator_in_mono (indicators : list str) (text text' : str) :
  Substring text text' ->
  any_indicator_in indicators text = true ->
  any_indicator_in indicators text' = true.
Proof.
  intros Hs H. apply any_indicator_in_iff in H. destruct H as [i [Hin Hi]].
  apply any_indicator_in_iff. exists i. split; [exact Hin | ].
  exact (Substring_trans i text text' Hi Hs).
Qed.

(** X1: on all-ASCII content the answer of [validate_request] does not depend
    on the case of the letters: two actions of the same type whose contents
    are equal once lower-cased get the same answer. *)
Theorem validate_request_ignores_ascii_case
    (self : GatekeeperAgent) (action1 action2 : AgentAction) :
  action_type action1 = action_type action2 ->
  forallb is_ascii (content action1) = true ->
  forallb is_ascii (content action2) = true ->
  map ascii_lower (content action1) = map ascii_lower (content action2) ->
  validate_request self action1 = validate_request self action2.
Proof.
  intros Ht H1 H2 Hl. unfold validate_request.
  rewrite Ht, (lower_ascii _ H1), (lower_ascii _ H2), Hl. reflexivity.
Qed.

(** X2: a question in ASCII that has, in any mix of upper and lower case, one
    of the broad phrases inside it is rejected.  (No spelling lower-cases to
    the phrase with the capital [I], so that phrase is out of reach
    here.) *)
Theorem validate_request_rejects_question_phrase_in_any_case
    (self : GatekeeperAgent) (action : AgentAction) (spelling : str) :
  action_type action = ASK_QUESTIONS ->
  forallb is_ascii (content action) = true ->
  In (map ascii_lower spelling) broad_indicators ->
  Substring spelling (content action) ->
  validate_request self action = (false, broad_message).
Proof.
  intros Ht Ha Hin Hs. rewrite (validate_request_ask self action Ht).
  rewrite (lower_ascii _ Ha).
  replace (any_indicator_in broad_indicators (map ascii_lower (content action)))
    with true; [reflexivity | ].
  symmetry. apply any_indicator_in_iff.
  exists (map ascii_lower spelling). split; [exact Hin | ].
  now apply Substring_map.
Qed.

(** X3: a test request in ASCII that has, in any mix of upper and lower case,
    one of the vague-test phrases inside it is rejected. *)
Theorem validate_request_rejects_test_phrase_in_any_case
    (self : GatekeeperAgent) (action : AgentAction) (spelling : str) :
  action_type action = REQUEST_TESTS ->
  forallb is_ascii (content action) = true ->
  In (map ascii_lower spelling) vague_indicators ->
  Substring spelling (content action) ->
  validate_request self action = (false, vague_message).
Proof.
  intros Ht Ha Hin Hs. rewrite (validate_request_test self action Ht).
  rewrite (lower_ascii _ Ha).
  replace (any_indicator_in vague_indicators (map ascii_lower (content action)))
    with true; [reflexivity | ].
  symmetry. apply any_indicator_in_iff.
  exists (map ascii_lower spelling). split; [exact Hin | ].
  now apply Substring_map.
Qed.

(** X4: a rejection cannot be talked away: when an action is rejected, the
    action of the same type whose content has ASCII text put before and
    after the rejected ASCII content gets the very same answer. *)
Theorem validate_request_rejection_survives_context
    (self : GatekeeperAgent) (action : AgentAction) (before after : str)
    (extra : ActionExtra) :
  forallb is_ascii before = true ->
  forallb is_ascii (content action) = true ->
  forallb is_ascii after = true ->
  fst (validate_request self action) = false ->
  validate_request self
    (mkAction (action_type action) (before ++ content action ++ after) extra)
  = validate_request self action.
Proof.
  intros Hb Hc Ha Hrej.
  assert (Hall : forallb is_ascii (before ++ content action ++ after) = true).
  { rewrite !forallb_app, Hb, Hc, Ha. reflexivity. }
  assert (Hsub : Substring (map ascii_lower (content action))
                   (map ascii_lower (before ++ content action ++ after))).
  { apply Substring_map. now exists before, after. }
  unfold validate_request in *. cbn [action_type content].
  rewrite (lower_ascii _ Hall). rewrite (lower_ascii _ Hc) in *.
  destruct (ActionType_eqb (action_type action) ASK_QUESTIONS).
  - destruct (any_indicator_in broad_indicators
                (map ascii_lower (content action))) eqn:E;
      [ | discriminate Hrej].
    now rewrite (any_indicator_in_mono _ _ _ Hsub E).
  - destruct (ActionType_eqb (action_type action) REQUEST_TESTS);
      [ | discriminate Hrej].
    destruct (any_indicator_in vague_indicators
                (map ascii_lower (content action))) eqn:E;
      [ | discriminate Hrej].
    now rewrite (any_indicator_in_mono _ _ _ Hsub E).
Qed.

(** X5: which ASCII questions are rejected: exactly those whose lower-cased
    content has one of four phrases inside it.  The fifth entry of the list,
    "what should I do", plays no part. *)
Theorem validate_request_question_rejected_iff
    (self : GatekeeperAgent) (action : AgentAction) :
  action_type action = ASK_QUESTIONS ->
  forallb is_ascii (content action) = true ->
  (fst (validate_request self action) = false <->
   exists phrase,
     In phrase [ lit "tell me everything"; lit "what's wrong";
                 lit "give me all information"; lit "summarize the case" ]
     /\ Substring phrase (map ascii_lower (content action))).
Proof.
  intros Ht Ha. rewrite (validate_request_ask self action Ht).
  pose proof (what_should_I_do_not_in_lowered_ascii (content action) Ha) as Hd.
  rewrite (lower_ascii _ Ha) in *.
  set (text := map ascii_lower (content action)) in *.
  split.
  - intros H.
    destruct (any_indicator_in broad_indicators text) eqn:E;
      [ | discriminate H].
    apply any_indicator_in_iff in E. destruct E as [i [Hin Hi]].
    exists i. split; [ | exact Hi].
    simpl in Hin. simpl.
    destruct Hin as [<- | [<- | [<- | [<- | [<- | []]]]]]; auto.
    apply contains_iff in Hi. congruence.
  - intros [i [Hin Hi]].
    replace (any_indicator_in broad_indicators text) with true;
      [reflexivity | ].
    symmetry. apply any_indicator_in_iff. exists i. split; [ | exact Hi].
    simpl in Hin. simpl. tauto.
Qed.

(** ** Further properties of [process_action] *)

(** X6: [process_action] makes at most one sub-agent call, whatever the action:
    none at all, or one [answer_question] on the gatekeeper's patient agent,
    or one [fetch_result] on its examination agent, in both cases with the
    content of the action and the case file it was given.  When no call is
    made the world is as it was and the outcome is an exception. *)
Theorem process_action_calls_at_most_once
    (self : GatekeeperAgent) (action : AgentAction) (case_file : CaseFile)
    (W : Type) (handler : Call -> W -> Outcome GatekeeperResponse * W)
    (w : W) :
  let result := run W handler (process_action self action case_file) w in
  (snd result = [] /\ snd (fst result) = w
   /\ exists error, fst (fst result) = Raised error)
  \/ snd result
     = [AnswerQuestion (patient_agent self) (content action) case_file]
  \/ snd result
     = [FetchResult (examination_agent self) (content action) case_file].
Proof.
  cbv zeta. unfold process_action.
  destruct (ActionType_eqb (action_type action) ASK_QUESTIONS).
  - right. left. rewrite run_single_call. reflexivity.
  - destruct (ActionType_eqb (action_type action) REQUEST_TESTS).
    + right. right. rewrite run_single_call. reflexivity.
    + left. simpl. repeat split. eexists. reflexivity.
Qed.

(** X7: of the gatekeeper, [process_action] uses the two sub-agents only, and
    of the action its type and content only: configuration, [model] and the
    other fields of the action have no say in what is dispatched. *)
Theorem process_action_depends_on_agents_type_and_content
    (self1 self2 : GatekeeperAgent) (action1 action2 : AgentAction)
    (case_file : CaseFile) :
  patient_agent self1 = patient_agent self2 ->
  examination_agent self1 = examination_agent self2 ->
  action_type action1 = action_type action2 ->
  content action1 = content action2 ->
  process_action self1 action1 case_file
  = process_action self2 action2 case_file.
Proof.
  intros Hp He Ht Hc. unfold process_action.
  rewrite Hp, He, Ht, Hc. reflexivity.
Qed.

(** X8: validation is no guard against a dispatch failure: every action that
    [process_action] refuses with an exception of its own is one that
    [validate_request] accepts, and the exception is a [ValueError]. *)
Theorem process_action_refusal_passes_validation
    (self self' : GatekeeperAgent) (action : AgentAction)
    (case_file : CaseFile) (error : PyExn) :
  process_action self action case_file = Raise error ->
  validate_request self' action = (true, lit "")
  /\ exc_class error = "ValueError"%string.
Proof.
  unfold process_action, validate_request.
  destruct (ActionType_eqb (action_type action) ASK_QUESTIONS);
    [discriminate | ].
  destruct (ActionType_eqb (action_type action) REQUEST_TESTS);
    [discriminate | ].
  intros H. injection H as <-. split; reflexivity.
Qed.

(** ** [__init__] *)


End Gatekeeper.

Arguments mkAction {ActionExtra} action_type content action_extra.
Arguments action_type {ActionExtra} a.
Arguments content {ActionExtra} a.
Arguments action_extra {ActionExtra} a.
Arguments mkGatekeeper {Config PatientAgent ExaminationAgent}
  config patient_agent examination_agent model.
Arguments patient_agent {Config PatientAgent ExaminationAgent} g.
Arguments examination_agent {Config PatientAgent ExaminationAgent} g.
Arguments validate_request {Config PatientAgent ExaminationAgent ActionExtra}
  unicode_lower self action.
Arguments process_action
  {Config CaseFile GatekeeperResponse PatientAgent ExaminationAgent ActionExtra}
  format_action_type self action case_file.
Arguments AnswerQuestion {CaseFile PatientAgent ExaminationAgent}
  agent question case_file.
Arguments FetchResult {CaseFile PatientAgent ExaminationAgent}
  agent test_name case_file.
Arguments Ret {CaseFile GatekeeperResponse PatientAgent ExaminationAgent A} a.
Arguments Raise {CaseFile GatekeeperResponse PatientAgent ExaminationAgent A} e.
Arguments Invoke {CaseFile GatekeeperResponse PatientAgent ExaminationAgent A}
  c k.
Arguments run {CaseFile GatekeeperResponse PatientAgent ExaminationAgent}
  W handler {A} p w.

(** ** The theorems at concrete requests

    Sub-agents, configuration and case file are units here, the rest of an
    action is a number, and lower-casing outside ASCII is left as the
    identity. *)

(** Scenario 1 of the specification: "Tell me everything about this
    patient" is rejected. *)
Lemma validate_request_rejects_broad_question_witness :
  let action :=
    mkAction ASK_QUESTIONS (lit "Tell me everything about this patient") 7 in
  action_type action = ASK_QUESTIONS
  /\ (exists phrase, In phrase broad_indicators /\
        Substring phrase (lower (fun s => s) (content action)))
  /\ validate_request (fun s => s) (mkGatekeeper tt tt tt (lit "m")) action
     = (false, broad_message).
Proof.
  cbv zeta.
  assert (Hp : exists phrase, In phrase broad_indicators /\
                 Substring phrase
                   (lower (fun s => s)
                      (lit "Tell me everything about this patient"))).
  { exists (lit "tell me everything"). split.
    - simpl. tauto.
    - exists [], (lit " about this patient"). reflexivity. }
  split; [reflexivity | split; [exact Hp | ] ].
  apply (validate_request_rejects_broad_question unit unit unit N
           (fun s => s) (mkGatekeeper tt tt tt (lit "m"))
           (mkAction ASK_QUESTIONS
              (lit "Tell me everything about this patient") 7)
           eq_refl Hp).
Defined.

(** Scenario 2: "Does the patient have a fever?" is accepted. *)
Lemma validate_request_accepts_specific_question_witness :
  let action :=
    mkAction ASK_QUESTIONS (lit "Does the patient have a fever?") 7 in
  action_type action = ASK_QUESTIONS
  /\ (forall phrase, In phrase broad_indicators ->
        ~ Substring phrase (lower (fun s => s) (content action)))
  /\ validate_request (fun s => s) (mkGatekeeper tt tt tt (lit "m")) action
     = (true, lit "").
Proof.
  cbv zeta.
  assert (Hp : forall phrase, In phrase broad_indicators ->
                 ~ Substring phrase
                     (lower (fun s => s)
                        (lit "Does the patient have a fever?"))).
  { apply any_indicator_in_false_iff. vm_compute. reflexivity. }
  split; [reflexivity | split; [exact Hp | ] ].
  apply (validate_request_accepts_specific_question unit unit unit N
           (fun s => s) (mkGatekeeper tt tt tt (lit "m"))
           (mkAction ASK_QUESTIONS (lit "Does the patient have a fever?") 7)
           eq_refl Hp).
Defined.

(** Scenarios 3 and 4: "order labs" is rejected, "Complete Blood Count" is
    accepted. *)
Lemma validate_request_test_request_witness :
  validate_request (fun s => s) (mkGatekeeper tt tt tt (lit "m"))
    (mkAction REQUEST_TESTS (lit "order labs") 7)
  = (false, vague_message)
  /\ validate_request (fun s => s) (mkGatekeeper tt tt tt (lit "m"))
       (mkAction REQUEST_TESTS (lit "Complete Blood Count") 7)
     = (true, lit "").
Proof.
  split.
  - apply (validate_request_test_request unit unit unit N (fun s => s)
             (mkGatekeeper tt tt tt (lit "m"))
             (mkAction REQUEST_TESTS (lit "order labs") 7) eq_refl).
    exists (lit "order labs"). split.
    + simpl. tauto.
    + exists [], []. reflexivity.
  - apply (validate_request_test_request unit unit unit N (fun s => s)
             (mkGatekeeper tt tt tt (lit "m"))
             (mkAction REQUEST_TESTS (lit "Complete Blood Count") 7) eq_refl).
    apply any_indicator_in_false_iff. vm_compute. reflexivity.
Defined.

(** An action of another type, with a content that both phrase sets would
    reject, is accepted. *)
Lemma validate_request_passes_other_types_witness :
  let action :=
    mkAction (OTHER "PROVIDE_DIAGNOSIS")
             (lit "tell me everything and order labs") 7 in
  action_type action <> ASK_QUESTIONS
  /\ action_type action <> REQUEST_TESTS
  /\ validate_request (fun s => s) (mkGatekeeper tt tt tt (lit "m")) action
     = (true, lit "").
Proof.
  cbv zeta.
  assert (H1 : OTHER "PROVIDE_DIAGNOSIS" <> ASK_QUESTIONS) by discriminate.
  assert (H2 : OTHER "PROVIDE_DIAGNOSIS" <> REQUEST_TESTS) by discriminate.
  split; [exact H1 | split; [exact H2 | ] ].
  apply (validate_request_passes_other_types unit unit unit N (fun s => s)
           (mkGatekeeper tt tt tt (lit "m"))
           (mkAction (OTHER "PROVIDE_DIAGNOSIS")
                     (lit "tell me everything and order labs") 7)
           H1 H2).
Defined.

(** Two gatekeepers that differ in every attribute, two actions that differ
    outside type and content: the same answer. *)
Lemma validate_request_depends_on_type_and_content_witness :
  let self1 := mkGatekeeper 1 true 10 (lit "patient=a, exam=b") in
  let self2 := mkGatekeeper 2 false 20 (lit "patient=c, exam=d") in
  let action1 := mkAction REQUEST_TESTS (lit "Run Blood Work") 1 in
  let action2 := mkAction REQUEST_TESTS (lit "Run Blood Work") 2 in
  action_type action1 = action_type action2
  /\ content action1 = content action2
  /\ validate_request (fun s => s) self1 action1
     = validate_request (fun s => s) self2 action2.
Proof.
  cbv zeta. split; [reflexivity | split; [reflexivity | ] ].
  apply (validate_request_depends_on_type_and_content N bool N N (fun s => s)
           (mkGatekeeper 1 true 10 (lit "patient=a, exam=b"))
           (mkGatekeeper 2 false 20 (lit "patient=c, exam=d"))
           (mkAction REQUEST_TESTS (lit "Run Blood Work") 1)
           (mkAction REQUEST_TESTS (lit "Run Blood Work") 2)
           eq_refl eq_refl).
Defined.

(** A space, a no-break space and a tab, as a question. *)
Lemma validate_request_accepts_blank_content_witness :
  let action := mkAction ASK_QUESTIONS [32; 160; 9] 7 in
  (forall t : str, forallb isspace t = true ->
                   forallb isspace ((fun s : str => s) t) = true)
  /\ forallb isspace (content action) = true
  /\ validate_request (fun s => s) (mkGatekeeper tt tt tt (lit "m")) action
     = (true, lit "").
Proof.
  cbv zeta.
  split; [intros t Ht; exact Ht | split; [reflexivity | ] ].
  apply (validate_request_accepts_blank_content unit unit unit N (fun s => s)
           (mkGatekeeper tt tt tt (lit "m"))
           (mkAction ASK_QUESTIONS [32; 160; 9] 7)
           (fun t Ht => Ht) eq_refl).
Defined.

(** A diagnosis handed to [process_action]: a [ValueError], and the
    sub-agents, which here count their calls, are not called. *)
Lemma process_action_raises_ValueError_witness :
  let self := mkGatekeeper tt tt tt (lit "m") in
  let action := mkAction (OTHER "PROVIDE_DIAGNOSIS") (lit "appendicitis") 7 in
  let handler := fun (_ : @Call unit unit unit) (n : N) =>
                   (@Returned (list N) (lit "ok"), n + 1) in
  let error :=
    {| exc_class := "ValueError";
       exc_msg := lit "Gatekeeper cannot process action type: ActionType.PROVIDE_DIAGNOSIS" |} in
  action_type action <> ASK_QUESTIONS
  /\ action_type action <> REQUEST_TESTS
  /\ process_action (GatekeeperResponse := list N)
       (fun _ => lit "ActionType.PROVIDE_DIAGNOSIS") self action tt
     = Raise error
  /\ run N handler
       (process_action (fun _ => lit "ActionType.PROVIDE_DIAGNOSIS")
                       self action tt) 0
     = (Raised error, 0, []).
Proof.
  cbv zeta.
  assert (H1 : OTHER "PROVIDE_DIAGNOSIS" <> ASK_QUESTIONS) by discriminate.
  assert (H2 : OTHER "PROVIDE_DIAGNOSIS" <> REQUEST_TESTS) by discriminate.
  split; [exact H1 | split; [exact H2 | ] ].
  apply (process_action_raises_ValueError unit unit (list N) unit unit N
           (fun _ => lit "ActionType.PROVIDE_DIAGNOSIS")
           (mkGatekeeper tt tt tt (lit "m"))
           (mkAction (OTHER "PROVIDE_DIAGNOSIS") (lit "appendicitis") 7)
           tt N
           (fun (_ : @Call unit unit unit) (n : N) =>
              (@Returned (list N) (lit "ok"), n + 1))
           0 H1 H2).
Defined.

(** C7, as the claim words it, fails: the exception raised for a diagnosis
    is not an [UnsupportedActionError], whatever its message. *)
Lemma process_action_error_is_not_UnsupportedActionError :
  ~ exists message : str,
      @process_action unit unit (list N) unit unit N
        (fun _ => lit "ActionType.PROVIDE_DIAGNOSIS")
        (mkGatekeeper tt tt tt (lit "m"))
        (mkAction (OTHER "PROVIDE_DIAGNOSIS") (lit "appendicitis") 7) tt
      = Raise {| exc_class := "UnsupportedActionError";
                 exc_msg := message |}.
Proof.
  intros [message H]. unfold process_action in H. simpl in H.
  injection H as Hclass _. discriminate Hclass.
Qed.

(** Scenario 5: sub-agents that note every call they get in the world and
    answer with a fixed text.  The CT request reaches the examination agent
    alone, once, with the content as it was typed, and its answer comes
    back. *)
Example process_action_ct_scan :
  let self := mkGatekeeper tt 1 2 (lit "patient=a, exam=b") in
  let action :=
    mkAction REQUEST_TESTS (lit "CT of the abdomen with contrast") 7 in
  let handler := fun (c : @Call string N N) (seen : list (@Call string N N)) =>
                   match c with
                   | AnswerQuestion _ _ _ =>
                       (@Returned str (lit "No fever."), seen ++ [c])
                   | FetchResult _ _ _ =>
                       (@Returned str (lit "No acute findings."), seen ++ [c])
                   end in
  let call :=
    FetchResult 2 (lit "CT of the abdomen with contrast") "case-1"%string in
  run _ handler
      (process_action (fun _ => lit "") self action "case-1"%string) []
  = (Returned (lit "No acute findings."), [call], [call]).
Proof.
  reflexivity.
Qed.

(** ** The further properties at concrete requests *)

(** "ORDER Labs now" and "order labs NOW" get the same answer. *)
Lemma validate_request_ignores_ascii_case_witness :
  let action1 := mkAction REQUEST_TESTS (lit "ORDER Labs now") 1 in
  let action2 := mkAction REQUEST_TESTS (lit "order labs NOW") 2 in
  action_type action1 = action_type action2
  /\ forallb is_ascii (content action1) = true
  /\ forallb is_ascii (content action2) = true
  /\ map ascii_lower (content action1) = map ascii_lower (content action2)
  /\ validate_request (fun s => s) (mkGatekeeper tt tt tt (lit "m")) action1
     = validate_request (fun s => s) (mkGatekeeper tt tt tt (lit "m")) action2.
Proof.
  cbv zeta. repeat (split; [reflexivity | ]).
  apply (validate_request_ignores_ascii_case unit unit unit N (fun s => s)
           (mkGatekeeper tt tt tt (lit "m"))
           (mkAction REQUEST_TESTS (lit "ORDER Labs now") 1)
           (mkAction REQUEST_TESTS (lit "order labs NOW") 2)
           eq_refl eq_refl eq_refl eq_refl).
Defined.

(** "Please SUMMARIZE the Case now" is rejected. *)
Lemma validate_request_rejects_question_phrase_in_any_case_witness :
  let action :=
    mkAction ASK_QUESTIONS (lit "Please SUMMARIZE the Case now") 7 in
  let spelling := lit "SUMMARIZE the Case" in
  action_type action = ASK_QUESTIONS
  /\ forallb is_ascii (content action) = true
  /\ In (map ascii_lower spelling) broad_indicators
  /\ Substring spelling (content action)
  /\ validate_request (fun s => s) (mkGatekeeper tt tt tt (lit "m")) action
     = (false, broad_message).
Proof.
  cbv zeta.
  assert (Hin : In (map ascii_lower (lit "SUMMARIZE the Case"))
                   broad_indicators) by (vm_compute; tauto).
  assert (Hs : Substring (lit "SUMMARIZE the Case")
                 (lit "Please SUMMARIZE the Case now"))
    by (exists (lit "Please "), (lit " now"); reflexivity).
  split; [reflexivity | split; [reflexivity | split; [exact Hin | ] ] ].
  split; [exact Hs | ].
  apply (validate_request_rejects_question_phrase_in_any_case
           unit unit unit N (fun s => s) (mkGatekeeper tt tt tt (lit "m"))
           (mkAction ASK_QUESTIONS (lit "Please SUMMARIZE the Case now") 7)
           (lit "SUMMARIZE the Case") eq_refl eq_refl Hin Hs).
Defined.

(** "Just Run Diagnostics!" is rejected. *)
Lemma validate_request_rejects_test_phrase_in_any_case_witness :
  let action := mkAction REQUEST_TESTS (lit "Just Run Diagnostics!") 7 in
  let spelling := lit "Run Diagnostics" in
  action_type action = REQUEST_TESTS
  /\ forallb is_ascii (content action) = true
  /\ In (map ascii_lower spelling) vague_indicators
  /\ Substring spelling (content action)
  /\ validate_request (fun s => s) (mkGatekeeper tt tt tt (lit "m")) action
     = (false, vague_message).
Proof.
  cbv zeta.
  assert (Hin : In (map ascii_lower (lit "Run Diagnostics"))
                   vague_indicators) by (vm_compute; tauto).
  assert (Hs : Substring (lit "Run Diagnostics")
                 (lit "Just Run Diagnostics!"))
    by (exists (lit "Just "), (lit "!"); reflexivity).
  split; [reflexivity | split; [reflexivity | split; [exact Hin | ] ] ].
  split; [exact Hs | ].
  apply (validate_request_rejects_test_phrase_in_any_case
           unit unit unit N (fun s => s) (mkGatekeeper tt tt tt (lit "m"))
           (mkAction REQUEST_TESTS (lit "Just Run Diagnostics!") 7)
           (lit "Run Diagnostics") eq_refl eq_refl Hin Hs).
Defined.

(** "get tests" is rejected, and so is "Could you get tests please?". *)
Lemma validate_request_rejection_survives_context_witness :
  let self := mkGatekeeper tt tt tt (lit "m") in
  let action := mkAction REQUEST_TESTS (lit "get tests") 1 in
  forallb is_ascii (lit "Could you ") = true
  /\ forallb is_ascii (content action) = true
  /\ forallb is_ascii (lit " please?") = true
  /\ fst (validate_request (fun s => s) self action) = false
  /\ validate_request (fun s => s) self
       (mkAction (action_type action)
                 (lit "Could you " ++ content action ++ lit " please?") 2)
     = validate_request (fun s => s) self action.
Proof.
  cbv zeta. repeat (split; [reflexivity | ]).
  apply (validate_request_rejection_survives_context unit unit unit N
           (fun s => s) (mkGatekeeper tt tt tt (lit "m"))
           (mkAction REQUEST_TESTS (lit "get tests") 1)
           (lit "Could you ") (lit " please?") 2
           eq_refl eq_refl eq_refl eq_refl).
Defined.

(** "What's Wrong with him?": rejected, by the second phrase. *)
Lemma validate_request_question_rejected_iff_witness :
  let self := mkGatekeeper tt tt tt (lit "m") in
  let action := mkAction ASK_QUESTIONS (lit "What's Wrong with him?") 7 in
  action_type action = ASK_QUESTIONS
  /\ forallb is_ascii (content action) = true
  /\ (fst (validate_request (fun s => s) self action) = false <->
      exists phrase,
        In phrase [ lit "tell me everything"; lit "what's wrong";
                    lit "give me all information"; lit "summarize the case" ]
        /\ Substring phrase (map ascii_lower (content action))).
Proof.
  cbv zeta. split; [reflexivity | split; [reflexivity | ] ].
  apply (validate_request_question_rejected_iff unit unit unit N
           (fun s => s) (mkGatekeeper tt tt tt (lit "m"))
           (mkAction ASK_QUESTIONS (lit "What's Wrong with him?") 7)
           eq_refl eq_refl).
Defined.

(** Two gatekeepers with the same sub-agents and nothing else in common,
    two actions that differ outside type and content. *)
Lemma process_action_depends_on_agents_type_and_content_witness :
  let self1 := mkGatekeeper 1 true 10 (lit "patient=a, exam=b") in
  let self2 := mkGatekeeper 2 true 10 (lit "patient=c, exam=d") in
  let action1 := mkAction ASK_QUESTIONS (lit "Any fever?") 1 in
  let action2 := mkAction ASK_QUESTIONS (lit "Any fever?") 2 in
  patient_agent self1 = patient_agent self2
  /\ examination_agent self1 = examination_agent self2
  /\ action_type action1 = action_type action2
  /\ content action1 = content action2
  /\ process_action (CaseFile := unit) (GatekeeperResponse := str)
       (fun _ => lit "") self1 action1 tt
     = process_action (fun _ => lit "") self2 action2 tt.
Proof.
  cbv zeta. repeat (split; [reflexivity | ]).
  apply (process_action_depends_on_agents_type_and_content
           N unit str bool N N (fun _ => lit "")
           (mkGatekeeper 1 true 10 (lit "patient=a, exam=b"))
           (mkGatekeeper 2 true 10 (lit "patient=c, exam=d"))
           (mkAction ASK_QUESTIONS (lit "Any fever?") 1)
           (mkAction ASK_QUESTIONS (lit "Any fever?") 2)
           tt eq_refl eq_refl eq_refl eq_refl).
Defined.

(** A diagnosis is refused by [process_action] and accepted by
    [validate_request]. *)
Lemma process_action_refusal_passes_validation_witness :
  let self := mkGatekeeper tt tt tt (lit "m") in
  let action := mkAction (OTHER "PROVIDE_DIAGNOSIS") (lit "appendicitis") 7 in
  let error :=
    {| exc_class := "ValueError";
       exc_msg := lit "Gatekeeper cannot process action type: ActionType.PROVIDE_DIAGNOSIS" |} in
  process_action (CaseFile := unit) (GatekeeperResponse := str)
    (fun _ => lit "ActionType.PROVIDE_DIAGNOSIS") self action tt
  = Raise error
  /\ validate_request (fun s => s) self action = (true, lit "")
  /\ exc_class error = "ValueError"%string.
Proof.
  cbv zeta. split; [reflexivity | ].
  apply (process_action_refusal_passes_validation
           unit unit str unit unit N
           (fun _ => lit "ActionType.PROVIDE_DIAGNOSIS") (fun s => s)
           (mkGatekeeper tt tt tt (lit "m"))
           (mkGatekeeper tt tt tt (lit "m"))
           (mkAction (OTHER "PROVIDE_DIAGNOSIS") (lit "appendicitis") 7)
           tt _ eq_refl).
Defined.
